(** * WeChat identity client: credential exchange and request signing

    A shallow embedding of the service module that exports [wechatService]
    (class [WeChatService]) and of [modules/vars.js] (the [VARS]
    configuration object), together with the properties of the request
    shaping, the signing contract and the error translation that the design
    document states about them.

    Strings are byte strings (a JavaScript string is read through its UTF-8
    encoding, which is what the HMAC primitive and the HTTP client see). *)

From Stdlib Require Import ZArith String Ascii List Bool Lia.
From stdpp Require Import base option list strings pretty gmap fin_maps.

Import ListNotations.
Local Open Scope string_scope.

(** ** Byte strings *)

Module Bytes.

(** A byte is a [Z] in [0, 255]. *)
Definition of_ascii (c : ascii) : Z := Z.of_N (N_of_ascii c).

Fixpoint of_string (s : string) : list Z :=
  match s with
  | EmptyString => []
  | String c s' => of_ascii c :: of_string s'
  end.

Definition hex_digit (n : Z) : ascii :=
  if (n <? 10)%Z
  then ascii_of_N (Z.to_N (48 + n))
  else ascii_of_N (Z.to_N (87 + n)).

(** Lower-case hexadecimal, two digits per byte. *)
Fixpoint hex (bs : list Z) : string :=
  match bs with
  | [] => EmptyString
  | b :: bs' =>
      String (hex_digit (Z.land (Z.shiftr b 4) 15))
             (String (hex_digit (Z.land b 15)) (hex bs'))
  end.

(** Big-endian bytes of a word, [n] bytes wide. *)
Fixpoint be_bytes (n : nat) (x : Z) : list Z :=
  match n with
  | O => []
  | S n' => Z.land (Z.shiftr x (8 * Z.of_nat n')) 255 :: be_bytes n' x
  end.

Definition be_word (bs : list Z) : Z :=
  fold_left (fun acc b => Z.lor (Z.shiftl acc 8) b) bs 0%Z.

(** Cut a list into consecutive pieces of [n] elements; [fuel] bounds the
    number of pieces. *)
Fixpoint chunks {A} (fuel n : nat) (l : list A) : list (list A) :=
  match fuel with
  | O => []
  | S fuel' =>
      match l with
      | [] => []
      | _ => firstn n l :: chunks fuel' n (skipn n l)
      end
  end.

End Bytes.

(** ** Signer

    Modelled from the spec: [utilityService.sign] comes from the module
    [./utility.js] that the service imports, which is not part of the
    sources at hand.  The design document fixes its contract: an HMAC using
    SHA-256 over [message] keyed by [key], returned in hexadecimal.  SHA-256
    follows FIPS 180-4 on 32-bit words held in [Z]; HMAC follows RFC 2104
    with a 64-byte block. *)

Module Signer.
Import Bytes.
Local Open Scope Z_scope.

Definition mask32 : Z := 0xffffffff.
Definition add32 (x y : Z) : Z := Z.land (x + y) mask32.
Definition rotr (n x : Z) : Z :=
  Z.lor (Z.shiftr x n) (Z.land (Z.shiftl x (32 - n)) mask32).
Definition not32 (x : Z) : Z := Z.lxor x mask32.

Definition Ch (x y z : Z) : Z := Z.lxor (Z.land x y) (Z.land (not32 x) z).
Definition Maj (x y z : Z) : Z :=
  Z.lxor (Z.lxor (Z.land x y) (Z.land x z)) (Z.land y z).
Definition bsig0 (x : Z) : Z := Z.lxor (Z.lxor (rotr 2 x) (rotr 13 x)) (rotr 22 x).
Definition bsig1 (x : Z) : Z := Z.lxor (Z.lxor (rotr 6 x) (rotr 11 x)) (rotr 25 x).
Definition ssig0 (x : Z) : Z := Z.lxor (Z.lxor (rotr 7 x) (rotr 18 x)) (Z.shiftr x 3).
Definition ssig1 (x : Z) : Z := Z.lxor (Z.lxor (rotr 17 x) (rotr 19 x)) (Z.shiftr x 10).

(** FIPS 180-4 draws its constants from the primes: the first 32 bits of
    the fractional part of the square root (initial hash value) or of the
    cube root (round constants) of a prime [p], that is, the integer [k]-th
    root of [p * 2^(32k)] modulo [2^32]. *)
Definition is_prime (n : nat) : bool :=
  forallb (fun d => negb (Nat.eqb (n mod d) 0)) (seq 2 (n - 2)).

Definition primes : list Z :=
  map Z.of_nat (firstn 64 (filter is_prime (seq 2 310))).

(** The greatest [r' = r + (a sum of powers of two below 2^bits)] with
    [r' ^ k <= n]. *)
Fixpoint root_from (bits : nat) (k n r : Z) : Z :=
  match bits with
  | O => r
  | S bits' =>
      let r' := r + 2 ^ Z.of_nat bits' in
      if r' ^ k <=? n then root_from bits' k n r' else root_from bits' k n r
  end.

Definition fractional_bits (k p : Z) : Z :=
  Z.land (root_from 40 k (p * 2 ^ (32 * k)) 0) mask32.

Definition round_constants : list Z :=
  Eval vm_compute in map (fractional_bits 3) primes.

(** The eight working variables / chaining values. *)
Record state := State { sa : Z; sb : Z; sc : Z; sd : Z;
                        se : Z; sf : Z; sg : Z; sh : Z }.

Definition state_of_words (ws : list Z) : state :=
  State (nth 0 ws 0) (nth 1 ws 0) (nth 2 ws 0) (nth 3 ws 0)
        (nth 4 ws 0) (nth 5 ws 0) (nth 6 ws 0) (nth 7 ws 0).

Definition initial_state : state :=
  Eval vm_compute in state_of_words (map (fractional_bits 2) (firstn 8 primes)).

(** Message schedule.  [rev_w] holds the words computed so far, latest
    first, so that W(t-2), W(t-7), W(t-15), W(t-16) sit at positions
    1, 6, 14, 15. *)
Fixpoint extend_schedule (n : nat) (rev_w : list Z) : list Z :=
  match n with
  | O => rev_w
  | S n' =>
      let wt := add32 (add32 (add32 (ssig1 (nth 1 rev_w 0)) (nth 6 rev_w 0))
                             (ssig0 (nth 14 rev_w 0)))
                      (nth 15 rev_w 0) in
      extend_schedule n' (wt :: rev_w)
  end.

Definition schedule (block : list Z) : list Z :=
  let m := map be_word (chunks 16 4 block) in
  rev (extend_schedule 48 (rev m)).

Definition round (s : state) (kw : Z * Z) : state :=
  let t1 := add32 (add32 (add32 (add32 (sh s) (bsig1 (se s)))
                                (Ch (se s) (sf s) (sg s)))
                         (fst kw))
                  (snd kw) in
  let t2 := add32 (bsig0 (sa s)) (Maj (sa s) (sb s) (sc s)) in
  State (add32 t1 t2) (sa s) (sb s) (sc s)
        (add32 (sd s) t1) (se s) (sf s) (sg s).

Definition compress (h : state) (block : list Z) : state :=
  let r := fold_left round (combine round_constants (schedule block)) h in
  State (add32 (sa h) (sa r)) (add32 (sb h) (sb r))
        (add32 (sc h) (sc r)) (add32 (sd h) (sd r))
        (add32 (se h) (se r)) (add32 (sf h) (sf r))
        (add32 (sg h) (sg r)) (add32 (sh h) (sh r)).

(** Padding: a [1] bit, then zeros up to 56 mod 64 bytes, then the length
    in bits on 64 bits. *)
Definition pad (msg : list Z) : list Z :=
  let len := Z.of_nat (length msg) in
  msg ++ [0x80] ++ repeat 0 (Z.to_nat ((55 - len) mod 64))
      ++ be_bytes 8 (8 * len).

Definition digest_bytes (h : state) : list Z :=
  flat_map (be_bytes 4)
           [sa h; sb h; sc h; sd h; se h; sf h; sg h; sh h].

Definition sha256 (msg : list Z) : list Z :=
  let p := pad msg in
  digest_bytes (fold_left compress (chunks (length p) 64 p) initial_state).

Definition block_size : nat := 64.

Definition hmac_key_block (key : list Z) : list Z :=
  let k := if (block_size <? length key)%nat then sha256 key else key in
  k ++ repeat 0 (block_size - length k).

Definition hmac_sha256 (key msg : list Z) : list Z :=
  let k := hmac_key_block key in
  let ipad := map (Z.lxor 0x36) k in
  let opad := map (Z.lxor 0x5c) k in
  sha256 (opad ++ sha256 (ipad ++ msg)).

(** [sign(message, key)]: hexadecimal HMAC-SHA256 of [message] under [key]. *)
Definition sign (message key : string) : string :=
  hex (hmac_sha256 (of_string key) (of_string message)).

End Signer.

(** ** JavaScript values

    What [response.data] can hold once the HTTP client has decoded a JSON
    body, plus [undefined].  Numbers are the integral ones (error codes,
    expiry seconds); objects are finite maps from property names. *)

#[warnings="-register-all"]
Inductive Value :=
| VUndefined
| VNull
| VBool (b : bool)
| VNum (n : Z)
| VStr (s : string)
| VArr (items : list Value)
| VObj (fields : gmap string Value).

(** Values that can be thrown or that a promise can reject with. *)
#[warnings="-register-all"]
Inductive Thrown :=
| TypeError (reading : string)
| AxiosError (code : string) (status : option Z)
| HttpError (code : Z) (message : string) (cause : option Thrown).

Module JS.

Fixpoint char_at (s : string) (i : nat) : option ascii :=
  match s, i with
  | EmptyString, _ => None
  | String c _, O => Some c
  | String _ s', S i' => char_at s' i'
  end.

(** [v.name] for a property name that is not an array index.  Reading a
    property of [undefined] or [null] raises a TypeError; an object yields
    the property or [undefined]; arrays and strings carry [length]. *)
Definition get_member (v : Value) (name : string) : Thrown + Value :=
  match v with
  | VUndefined | VNull => inl (TypeError name)
  | VObj fields => inr (default VUndefined (fields !! name))
  | VArr items =>
      inr (if decide (name = "length")
           then VNum (Z.of_nat (length items)) else VUndefined)
  | VStr s =>
      inr (if decide (name = "length")
           then VNum (Z.of_nat (String.length s)) else VUndefined)
  | VBool _ | VNum _ => inr VUndefined
  end.

(** [v[i]] for a literal index [i].  An index past the end of an array or
    a string is [undefined], not an error. *)
Definition get_index (v : Value) (i : nat) : Thrown + Value :=
  match v with
  | VUndefined | VNull => inl (TypeError (pretty i))
  | VArr items => inr (default VUndefined (items !! i))
  | VStr s =>
      inr (from_option (fun c => VStr (String c EmptyString))
                       VUndefined (char_at s i))
  | VObj fields => inr (default VUndefined (fields !! pretty i))
  | VBool _ | VNum _ => inr VUndefined
  end.

(** [v ?? d] *)
Definition nullish (v d : Value) : Value :=
  match v with
  | VUndefined | VNull => d
  | _ => v
  end.

(** The string a template literal splices in for [${v}]. *)
Fixpoint to_string (v : Value) : string :=
  match v with
  | VUndefined => "undefined"
  | VNull => "null"
  | VBool true => "true"
  | VBool false => "false"
  | VNum n => pretty n
  | VStr s => s
  | VArr items =>
      (fix join (l : list Value) : string :=
         match l with
         | [] => ""
         | x :: l' =>
             let element :=
               match x with
               | VUndefined | VNull => ""
               | _ => to_string x
               end in
             match l' with
             | [] => element
             | _ => element +:+ "," +:+ join l'
             end
         end) items
  | VObj _ => "[object Object]"
  end.

End JS.

(** ** The HTTP client and asynchronous computations

    [axios(url, config)] is the one effect of the service.  The remote side is
    an oracle that either rejects with some thrown value or resolves with a
    response; every request handed to it is logged, in order. *)

Record Request := {
  url : string;
  method : option string;
  data : option Value;
  headers : list (string * string)
}.

(** [response.status] and [response.data] *)
Record AxiosResponse := {
  status : Z;
  response_data : Value
}.

Definition Transport : Type := Request -> Thrown + AxiosResponse.

(** An [async] body: runs against a transport, appends to the request log,
    and settles as rejected ([inl]) or fulfilled ([inr]). *)
Definition Async (A : Type) : Type :=
  Transport -> list Request -> list Request * (Thrown + A).

#[global] Instance Async_ret : MRet Async :=
  fun A a _ log => (log, inr a).

#[global] Instance Async_bind : MBind Async :=
  fun A B f m t log =>
    match m t log with
    | (log', inr a) => f a t log'
    | (log', inl e) => (log', inl e)
    end.

Definition throw {A} (e : Thrown) : Async A :=
  fun _ log => (log, inl e).

Definition try_catch {A} (body : Async A) (handler : Thrown -> Async A) : Async A :=
  fun t log =>
    match body t log with
    | (log', inl e) => handler e t log'
    | settled => settled
    end.

(** An expression that may throw, evaluated inside an [async] body. *)
Definition eval {A} (r : Thrown + A) : Async A :=
  fun _ log => (log, r).

(** [await axios(url, config)] *)
Definition axios (requestUrl : string) (meth : option string)
    (body : option Value) (hdrs : list (string * string)) : Async AxiosResponse :=
  fun t log =>
    let req := {| url := requestUrl; method := meth; data := body; headers := hdrs |} in
    ((log ++ [req])%list, t req).

Notation "'try' body 'catch' error '=>' handler" :=
  (try_catch body (fun error => handler))
  (at level 10, body at level 200, error name, handler at level 200).

(** One call of an operation: the requests it sent and how it settled. *)
Record Outcome (A : Type) := {
  sent : list Request;
  settled : Thrown + A
}.
Arguments sent {A} _.
Arguments settled {A} _.

Definition run {A} (m : Async A) (t : Transport) : Outcome A :=
  let '(log, r) := m t [] in {| sent := log; settled := r |}.

(** The method the client puts on the wire: [config.method], [GET] when the
    configuration names none. *)
Definition wire_method (r : Request) : string := default "GET" (method r).

(** ** Configuration: [modules/vars.js] *)

Definition process_env (env : gmap string string) (name : string) : Value :=
  from_option VStr VUndefined (env !! name).

Definition VARS (env : gmap string string) : gmap string Value :=
  {[ "APP_CONTEXT" := VStr "";
     "IOT_API_ENDPOINT" :=
       JS.nullish (process_env env "IOT_API_ENDPOINT") (VStr "https://openapi.tuyacn.com");
     "IOT_CLIENT_ID" := JS.nullish (process_env env "IOT_CLIENT_ID") (VStr "");
     "IOT_CLIENT_SECRET" := JS.nullish (process_env env "IOT_CLIENT_SECRET") (VStr "") ]}.

(** ** [http-manager.js]

    The module is imported by the service but is not among the sources: the
    status codes [httpCodes.OK] and [httpCodes.BAD_REQUEST] and the message
    [httpMessages.BAD_REQUEST] are parameters of the development. *)

Record HttpCodes := { OK : Z; BAD_REQUEST : Z }.
Record HttpMessages := { BAD_REQUEST_MESSAGE : string }.

(** Modelled from the spec: [httpError(code, message, cause)] of
    [http-manager.js] builds the failure value of the given kind, "carrying
    the triggering cause"; a call with two arguments leaves the cause out. *)
Definition httpError (code : Z) (message : string) (cause : option Thrown) : Thrown :=
  HttpError code message cause.

(** ** The service: class [WeChatService]

    Each operation is transcribed statement by statement: the template
    literal of the URL, the [try] block around [await axios(...)], and the
    [catch] that re-raises through [httpError]. *)

Section WeChatService.

Variable env : gmap string string.
Variable httpCodes : HttpCodes.
Variable httpMessages : HttpMessages.

(** [${VARS.name}]: [VARS] is an object, so reading a field never throws,
    and a field it does not have reads as [undefined]. *)
Definition VARS_splice (name : string) : string :=
  JS.to_string (default VUndefined (VARS env !! name)).

Definition json_headers : list (string * string) :=
  [("Content-Type", "application/json")].

Definition bad_request (cause : option Thrown) : Thrown :=
  httpError (BAD_REQUEST httpCodes) (BAD_REQUEST_MESSAGE httpMessages) cause.

Definition obtainAccessToken : Async Value :=
  let requestUrl :=
    "https://api.weixin.qq.com/cgi-bin/token?grant_type=client_credential&appid="
      +:+ VARS_splice "APP_ID" +:+ "&secret=" +:+ VARS_splice "APP_SECRET" in
  try
    (response ← axios requestUrl None None json_headers;
     let payload := response_data response in
     mret payload)
  catch error => throw (bad_request (Some error)).

Definition obtainTelephone (accessToken code openid : string) : Async Value :=
  let requestUrl :=
    "https://api.weixin.qq.com/wxa/business/getuserphonenumber?access_token="
      +:+ accessToken in
  try
    (response ← axios requestUrl (Some "POST")
                  (Some (VObj {[ "code" := VStr code; "openid" := VStr openid ]}))
                  json_headers;
     let payload := response_data response in
     mret payload)
  catch error => throw (bad_request (Some error)).

Definition obtainOpenId (code : string) : Async Value :=
  let requestUrl :=
    "https://api.weixin.qq.com/sns/jscode2session?appid="
      +:+ VARS_splice "APP_ID" +:+ "&secret=" +:+ VARS_splice "APP_SECRET"
      +:+ "&js_code=" +:+ code +:+ "&grant_type=authorization_code" in
  try
    (response ← axios requestUrl None None json_headers;
     let payload := response_data response in
     mret payload)
  catch error => throw (bad_request (Some error)).

Definition verifySession (openId accessToken sessionKey : string) : Async Value :=
  let signature := Signer.sign "" sessionKey in
  let requestUrl :=
    "https://api.weixin.qq.com/wxa/checksession?access_token=="
      +:+ accessToken +:+ "&openid=" +:+ openId
      +:+ "&signature=" +:+ signature +:+ "&sig_method=hmac_sha256" in
  try
    (response ← axios requestUrl (Some "GET") None json_headers;
     let payload := response_data response in
     mret payload)
  catch error => throw (bad_request (Some error)).

Definition fetchUser (openId accessToken sessionKey : string) : Async Value :=
  let signature := Signer.sign "" sessionKey in
  let requestUrl :=
    "https://api.weixin.qq.com/wxa/getuserencryptkey?access_token=="
      +:+ accessToken +:+ "&openid=" +:+ openId
      +:+ "&signature=" +:+ signature +:+ "&sig_method=hmac_sha256" in
  try
    (response ← axios requestUrl (Some "GET") None json_headers;
     if decide (status response = OK httpCodes) then
       let payload := response_data response in
       key_info_list ← eval (JS.get_member payload "key_info_list");
       encryptedKey ← eval (JS.get_index key_info_list 0);
       mret payload
     else
       throw (bad_request None))
  catch error => throw (bad_request (Some error)).

End WeChatService.

(** ** Vocabulary of the properties *)

(** A call of one of the service's operations with its arguments. *)
Inductive Call :=
| ObtainAccessToken
| ObtainTelephone (accessToken code openid : string)
| ObtainOpenId (code : string)
| VerifySession (openId accessToken sessionKey : string)
| FetchUser (openId accessToken sessionKey : string).

Definition perform (env : gmap string string) (httpCodes : HttpCodes)
    (httpMessages : HttpMessages) (c : Call) : Async Value :=
  match c with
  | ObtainAccessToken => obtainAccessToken env httpCodes httpMessages
  | ObtainTelephone accessToken code openid =>
      obtainTelephone httpCodes httpMessages accessToken code openid
  | ObtainOpenId code => obtainOpenId env httpCodes httpMessages code
  | VerifySession openId accessToken sessionKey =>
      verifySession httpCodes httpMessages openId accessToken sessionKey
  | FetchUser openId accessToken sessionKey =>
      fetchUser httpCodes httpMessages openId accessToken sessionKey
  end.

(** The four operations of the identity client ([verifySession] is the
    deprecated fifth). *)
Definition identity_operation (c : Call) : bool :=
  match c with
  | VerifySession _ _ _ => false
  | _ => true
  end.

(** Modelled from the spec: the payload classes of [../models/wechat.js]
    are not among the sources; the design document gives every payload an
    optional error code and message.  The remote API reports the code in the
    numeric field [errcode], and any value other than [0] reports a
    failure. *)
Definition error_code (payload : Value) : option Z :=
  match payload with
  | VObj fields =>
      match fields !! "errcode" with
      | Some (VNum n) => Some n
      | _ => None
      end
  | _ => None
  end.

Definition indicates_failure (payload : Value) : Prop :=
  ∃ n, error_code payload = Some n ∧ n ≠ 0%Z.

(** The invariant the design document asks for: an operation never hands an
    error payload to its caller as a success. *)
Definition rejects_error_payloads (op : Async Value) : Prop :=
  ∀ (t : Transport) req r,
    sent (run op t) = [req] → t req = inr r →
    indicates_failure (response_data r) →
    ∃ e, settled (run op t) = inl e.

(** [payload.key_info_list[0]] *)
Definition first_key_info (payload : Value) : Thrown + Value :=
  match JS.get_member payload "key_info_list" with
  | inr list => JS.get_index list 0
  | inl e => inl e
  end.

(** What [fetchUser] makes of a response, read off its body: the status
    test first, then the key-info lookup, then the payload itself. *)
Definition fetchUser_settles (httpCodes : HttpCodes) (httpMessages : HttpMessages)
    (r : AxiosResponse) : Thrown + Value :=
  if decide (status r = OK httpCodes) then
    match first_key_info (response_data r) with
    | inr _ => inr (response_data r)
    | inl e => inl (bad_request httpCodes httpMessages (Some e))
    end
  else
    inl (bad_request httpCodes httpMessages
           (Some (bad_request httpCodes httpMessages None))).

(** The only tests a response has to pass before its payload is returned:
    none, except in [fetchUser], where the status must be OK and
    [payload.key_info_list[0]] must be readable. *)
Definition accepts (httpCodes : HttpCodes) (c : Call) (r : AxiosResponse) : Prop :=
  match c with
  | FetchUser _ _ _ =>
      status r = OK httpCodes ∧ ∃ entry, first_key_info (response_data r) = inr entry
  | _ => True
  end.

(** *** Query strings *)

(** [k1=v1&k2=v2&...], nothing escaped. *)
Fixpoint render_query (params : list (string * string)) : string :=
  match params with
  | [] => ""
  | [(k, v)] => k +:+ "=" +:+ v
  | (k, v) :: rest => k +:+ "=" +:+ v +:+ "&" +:+ render_query rest
  end.

Fixpoint mentions (c : ascii) (s : string) : bool :=
  match s with
  | EmptyString => false
  | String c' s' => if Ascii.eqb c' c then true else mentions c s'
  end.

(** Every character of [s] is one of [alphabet]. *)
Fixpoint drawn_from (alphabet s : string) : bool :=
  match s with
  | EmptyString => true
  | String c s' => mentions c alphabet && drawn_from alphabet s'
  end.

Definition hex_alphabet : string := "0123456789abcdef".

(** The text before the first [sep] and the text after it. *)
Fixpoint cut_at (sep : ascii) (s : string) : string * string :=
  match s with
  | EmptyString => (EmptyString, EmptyString)
  | String c s' =>
      if Ascii.eqb c sep then (EmptyString, s')
      else let '(before, after) := cut_at sep s' in (String c before, after)
  end.

(** [s.split(sep)] for a one-character separator. *)
Fixpoint split_on (sep : ascii) (s : string) : list string :=
  match s with
  | EmptyString => [EmptyString]
  | String c s' =>
      if Ascii.eqb c sep then EmptyString :: split_on sep s'
      else match split_on sep s' with
           | piece :: pieces => String c piece :: pieces
           | [] => [String c EmptyString]
           end
  end.

(** How the receiving side reads a URL: the text after the first [?], cut
    at each [&], each piece cut at its first [=]. *)
Definition query_of (u : string) : string := snd (cut_at "?" u).

Definition query_params (u : string) : list (string * string) :=
  map (cut_at "=") (split_on "&" (query_of u)).

Fixpoint assoc (name : string) (params : list (string * string)) : option string :=
  match params with
  | [] => None
  | (k, v) :: rest => if String.eqb k name then Some v else assoc name rest
  end.

Definition query_param (u name : string) : option string :=
  assoc name (query_params u).

(** *** The endpoint templates of the interface description

    Each outbound request is described by a verb and a literal template with
    holes ([<id>], [<secret>], [<code>], [<token>], [<sig>]). *)

Inductive Piece :=
| Lit (text : string)
| Hole (name : string).

Record Endpoint := { verb : string; template : list Piece }.

Fixpoint instantiate (tpl : list Piece) (binding : gmap string string) : string :=
  match tpl with
  | [] => ""
  | Lit text :: tpl' => text +:+ instantiate tpl' binding
  | Hole name :: tpl' => default "" (binding !! name) +:+ instantiate tpl' binding
  end.

Definition api_host : string := "https://api.weixin.qq.com".

Definition token_endpoint : Endpoint :=
  {| verb := "GET";
     template := [Lit "/cgi-bin/token?grant_type=client_credential&appid="; Hole "id";
                  Lit "&secret="; Hole "secret"] |}.

Definition jscode2session_endpoint : Endpoint :=
  {| verb := "GET";
     template := [Lit "/sns/jscode2session?appid="; Hole "id";
                  Lit "&secret="; Hole "secret";
                  Lit "&js_code="; Hole "code";
                  Lit "&grant_type=authorization_code"] |}.

Definition getuserphonenumber_endpoint : Endpoint :=
  {| verb := "POST";
     template := [Lit "/wxa/business/getuserphonenumber?access_token="; Hole "token"] |}.

Definition getuserencryptkey_endpoint : Endpoint :=
  {| verb := "GET";
     template := [Lit "/wxa/getuserencryptkey?access_token=="; Hole "token";
                  Lit "&openid="; Hole "id";
                  Lit "&signature="; Hole "sig";
                  Lit "&sig_method=hmac_sha256"] |}.

Definition checksession_endpoint : Endpoint :=
  {| verb := "GET";
     template := [Lit "/wxa/checksession?access_token=="; Hole "token";
                  Lit "&openid="; Hole "id";
                  Lit "&signature="; Hole "sig";
                  Lit "&sig_method=hmac_sha256"] |}.

Definition endpoint_of (c : Call) : Endpoint :=
  match c with
  | ObtainAccessToken => token_endpoint
  | ObtainTelephone _ _ _ => getuserphonenumber_endpoint
  | ObtainOpenId _ => jscode2session_endpoint
  | VerifySession _ _ _ => checksession_endpoint
  | FetchUser _ _ _ => getuserencryptkey_endpoint
  end.

(** What each call puts in the holes of its template. *)
Definition binding_of (env : gmap string string) (c : Call) : gmap string string :=
  match c with
  | ObtainAccessToken =>
      {[ "id" := VARS_splice env "APP_ID"; "secret" := VARS_splice env "APP_SECRET" ]}
  | ObtainTelephone accessToken _ _ => {[ "token" := accessToken ]}
  | ObtainOpenId code =>
      {[ "id" := VARS_splice env "APP_ID"; "secret" := VARS_splice env "APP_SECRET";
         "code" := code ]}
  | VerifySession openId accessToken sessionKey
  | FetchUser openId accessToken sessionKey =>
      {[ "token" := accessToken; "id" := openId; "sig" := Signer.sign "" sessionKey ]}
  end.

(** *** Concrete collaborators used in the examples *)

Module Stub.

Definition codes : HttpCodes := {| OK := 200; BAD_REQUEST := 400 |}.
Definition messages : HttpMessages := {| BAD_REQUEST_MESSAGE := "Bad Request" |}.

(** A remote side that answers every request with the same response. *)
Definition answering (code : Z) (payload : Value) : Transport :=
  fun _ => inr {| status := code; response_data := payload |}.

(** A remote side that cannot be reached. *)
Definition unreachable : Transport :=
  fun _ => inl (AxiosError "ECONNREFUSED" None).

Definition invalid_appid : Value :=
  VObj {[ "errcode" := VNum 40013; "errmsg" := VStr "invalid appid" ]}.

Definition key_info (blob : string) : Value :=
  VObj {[ "encrypt_key" := VStr blob; "version" := VNum 1 ]}.

Definition profile (entries : list Value) : Value :=
  VObj {[ "errcode" := VNum 0; "errmsg" := VStr "ok";
          "key_info_list" := VArr entries ]}.

(** An error code next to a key-info list. *)
Definition failed_profile : Value :=
  VObj {[ "errcode" := VNum 40001; "key_info_list" := VArr [key_info "k1"] ]}.

End Stub.

(** ** [BigInt.prototype.toJSON]: [modules/vars.js] *)

Module BigInt.

Definition digit_char (d : N) : ascii := ascii_of_N (48 + d).

(** The decimal digits of [n], most significant first, in front of [acc];
    [fuel] bounds the number of digits. *)
Fixpoint digits (fuel : nat) (n : N) (acc : string) : string :=
  match fuel with
  | O => acc
  | S fuel' =>
      let acc' := String (digit_char (n mod 10)) acc in
      if (n / 10 =? 0)%N then acc' else digits fuel' (n / 10)%N acc'
  end.

(** [this.toString()]: the decimal numeral of a BigInt, with a leading [-]
    for a negative one. *)
Definition toString (this : Z) : string :=
  match this with
  | Z0 => "0"
  | Zpos p => digits (Pos.size_nat p) (Npos p) ""
  | Zneg p => String "-" (digits (Pos.size_nat p) (Npos p) "")
  end.

(** [BigInt.prototype.toJSON = function() { return this.toString(); }] *)
Definition toJSON (this : Z) : string := toString this.

End BigInt.

(** The integer a decimal numeral denotes. *)
Definition digit_value (c : ascii) : option N :=
  let v := N_of_ascii c in
  if ((48 <=? v) && (v <=? 57))%N then Some (v - 48)%N else None.

Fixpoint read_digits (s : string) (acc : N) : option N :=
  match s with
  | EmptyString => Some acc
  | String c s' =>
      match digit_value c with
      | Some d => read_digits s' (10 * acc + d)%N
      | None => None
      end
  end.

Definition numeral_value (s : string) : option Z :=
  match s with
  | EmptyString => None
  | String c s' =>
      if Ascii.eqb c "-"
      then match s' with
           | EmptyString => None
           | _ => (fun v => (- Z.of_N v)%Z) <$> read_digits s' 0
           end
      else Z.of_N <$> read_digits s 0
  end.

(** ** More vocabulary *)




(** [v === undefined || v === null] *)
Definition nullish_value (v : Value) : Prop := v = VUndefined ∨ v = VNull.

(** Why a call fails: the cause its bad-request error carries, given the
    answer of the remote side to its request. *)
Inductive FailureCause (httpCodes : HttpCodes) (httpMessages : HttpMessages)
    (c : Call) : Thrown + AxiosResponse → Thrown → Prop :=
| transport_rejected e :
    FailureCause httpCodes httpMessages c (inl e) e
| status_not_OK openId accessToken sessionKey r :
    c = FetchUser openId accessToken sessionKey →
    status r ≠ OK httpCodes →
    FailureCause httpCodes httpMessages c (inr r)
      (bad_request httpCodes httpMessages None)
| payload_nullish openId accessToken sessionKey r :
    c = FetchUser openId accessToken sessionKey →
    status r = OK httpCodes →
    nullish_value (response_data r) →
    FailureCause httpCodes httpMessages c (inr r) (TypeError "key_info_list")
| key_info_list_nullish openId accessToken sessionKey r list :
    c = FetchUser openId accessToken sessionKey →
    status r = OK httpCodes →
    JS.get_member (response_data r) "key_info_list" = inr list →
    nullish_value list →
    FailureCause httpCodes httpMessages c (inr r) (TypeError "0").

(** * Properties *)

(** Literal prefixes of a concatenation reduce under [simpl] in what
    follows; concatenations headed by a variable stay as they are. *)
#[local] Arguments String.append !_ _ / : simpl nomatch.

(** ** Strings *)

Lemma append_empty_r (s : string) : s +:+ "" = s.
Proof. induction s as [|c s IH]; simpl; [reflexivity | now rewrite IH]. Qed.


Lemma length_append (a b : string) :
  String.length (a +:+ b) = String.length a + String.length b.
Proof. induction a as [|x a IH]; simpl; [reflexivity | now rewrite IH]. Qed.


(** ** How a call runs *)

Section Running.

Variable env : gmap string string.
Variable httpCodes : HttpCodes.
Variable httpMessages : HttpMessages.

(** The request-then-return-payload body shared by four operations. *)
Lemma run_payload_request requestUrl meth body hdrs (t : Transport) :
  let req := {| url := requestUrl; method := meth; data := body; headers := hdrs |} in
  run (try (response ← axios requestUrl meth body hdrs;
            mret (response_data response))
       catch error => throw (bad_request httpCodes httpMessages (Some error))) t
  = {| sent := [req];
       settled := match t req with
                  | inl e => inl (bad_request httpCodes httpMessages (Some e))
                  | inr r => inr (response_data r)
                  end |}.
Proof.
  intros req. unfold run, try_catch, mbind, Async_bind, axios, mret, Async_ret, throw.
  cbn [app]. fold req. destruct (t req); reflexivity.
Qed.

Lemma run_fetchUser openId accessToken sessionKey (t : Transport) :
  let req := {| url := "https://api.weixin.qq.com/wxa/getuserencryptkey?access_token=="
                         +:+ accessToken +:+ "&openid=" +:+ openId
                         +:+ "&signature=" +:+ Signer.sign "" sessionKey
                         +:+ "&sig_method=hmac_sha256";
                method := Some "GET"; data := None; headers := json_headers |} in
  run (fetchUser httpCodes httpMessages openId accessToken sessionKey) t
  = {| sent := [req];
       settled := match t req with
                  | inl e => inl (bad_request httpCodes httpMessages (Some e))
                  | inr r => fetchUser_settles httpCodes httpMessages r
                  end |}.
Proof.
  intros req.
  unfold run, fetchUser, try_catch, mbind, Async_bind, axios, mret, Async_ret, throw, eval.
  cbn [app]. fold req. destruct (t req) as [e|r]; [reflexivity|].
  unfold fetchUser_settles, first_key_info.
  destruct (decide (status r = OK httpCodes)); [|reflexivity].
  destruct (JS.get_member (response_data r) "key_info_list") as [e1|l]; [reflexivity|].
  destruct (JS.get_index l 0); reflexivity.
Qed.

(** The requests a call sends do not depend on what the remote side
    answers, and there is exactly one of them; how the call settles is read
    off the answer to that request. *)
Lemma run_perform (c : Call) :
  ∃ req, ∀ t : Transport,
    run (perform env httpCodes httpMessages c) t
    = {| sent := [req];
         settled := match t req with
                    | inl e => inl (bad_request httpCodes httpMessages (Some e))
                    | inr r =>
                        match c with
                        | FetchUser _ _ _ => fetchUser_settles httpCodes httpMessages r
                        | _ => inr (response_data r)
                        end
                    end |}.
Proof.
  destruct c; cbn [perform];
    [ unfold obtainAccessToken | unfold obtainTelephone | unfold obtainOpenId
    | unfold verifySession | ];
    eexists; intros t;
    first [ apply run_payload_request | apply run_fetchUser ].
Qed.

Lemma sent_perform (c : Call) (t t' : Transport) :
  sent (run (perform env httpCodes httpMessages c) t)
  = sent (run (perform env httpCodes httpMessages c) t').
Proof. destruct (run_perform c) as [req H]. now rewrite !H. Qed.

Lemma settled_perform (c : Call) (t : Transport) req :
  sent (run (perform env httpCodes httpMessages c) t) = [req] →
  settled (run (perform env httpCodes httpMessages c) t)
  = match t req with
    | inl e => inl (bad_request httpCodes httpMessages (Some e))
    | inr r =>
        match c with
        | FetchUser _ _ _ => fetchUser_settles httpCodes httpMessages r
        | _ => inr (response_data r)
        end
    end.
Proof.
  destruct (run_perform c) as [req' H]. rewrite H. cbn [sent settled].
  intros [= ->]. reflexivity.
Qed.

Lemma settled_fetchUser openId accessToken sessionKey (t : Transport) req :
  sent (run (fetchUser httpCodes httpMessages openId accessToken sessionKey) t) = [req] →
  settled (run (fetchUser httpCodes httpMessages openId accessToken sessionKey) t)
  = match t req with
    | inl e => inl (bad_request httpCodes httpMessages (Some e))
    | inr r => fetchUser_settles httpCodes httpMessages r
    end.
Proof. rewrite run_fetchUser. cbn [sent settled]. intros [= <-]. reflexivity. Qed.

Lemma sent_fetchUser openId accessToken sessionKey (t t' : Transport) :
  sent (run (fetchUser httpCodes httpMessages openId accessToken sessionKey) t)
  = sent (run (fetchUser httpCodes httpMessages openId accessToken sessionKey) t').
Proof. now rewrite !run_fetchUser. Qed.

End Running.

(** ** The configuration object *)

Lemma VARS_no_app_credentials (env : gmap string string) :
  VARS env !! "APP_ID" = None ∧ VARS env !! "APP_SECRET" = None.
Proof. unfold VARS. split; simplify_map_eq; reflexivity. Qed.

Lemma VARS_splice_app_credentials (env : gmap string string) :
  VARS_splice env "APP_ID" = "undefined" ∧ VARS_splice env "APP_SECRET" = "undefined".
Proof.
  unfold VARS_splice. destruct (VARS_no_app_credentials env) as [-> ->].
  split; reflexivity.
Qed.

Lemma VARS_fields (env : gmap string string) :
  dom (VARS env)
  = ({[ "APP_CONTEXT"; "IOT_API_ENDPOINT"; "IOT_CLIENT_ID"; "IOT_CLIENT_SECRET" ]}
       : gset string).
Proof. unfold VARS. rewrite !dom_insert_L, dom_singleton_L. set_solver. Qed.

(** The environment is read at the three [IOT_*] names only. *)
Lemma VARS_reads_IOT_only (env env' : gmap string string) :
  (∀ name, String.prefix "IOT_" name = true → env !! name = env' !! name) →
  VARS env = VARS env'.
Proof.
  intros H. unfold VARS, process_env.
  rewrite (H "IOT_API_ENDPOINT"), (H "IOT_CLIENT_ID"), (H "IOT_CLIENT_SECRET");
    reflexivity.
Qed.

(** ** The signer's output *)

Lemma hex_length (bs : list Z) : String.length (Bytes.hex bs) = 2 * length bs.
Proof. induction bs as [|b bs IH]; simpl; [reflexivity | rewrite IH; lia]. Qed.

Lemma nibble_range (x : Z) : (0 ≤ Z.land x 15 < 16)%Z.
Proof.
  change 15%Z with (Z.ones 4). rewrite Z.land_ones by lia.
  apply Z.mod_pos_bound. reflexivity.
Qed.

Lemma hex_digit_in_alphabet (x : Z) :
  mentions (Bytes.hex_digit (Z.land x 15)) hex_alphabet = true.
Proof.
  pose proof (nibble_range x) as H. set (n := Z.land x 15) in *.
  assert (n ∈ [0; 1; 2; 3; 4; 5; 6; 7; 8; 9; 10; 11; 12; 13; 14; 15]%Z) as Hn.
  { rewrite !elem_of_cons. lia. }
  clearbody n. clear H.
  repeat (apply elem_of_cons in Hn as [-> | Hn]; [reflexivity|]).
  now apply elem_of_nil in Hn.
Qed.

Lemma hex_drawn_from_alphabet (bs : list Z) :
  drawn_from hex_alphabet (Bytes.hex bs) = true.
Proof.
  induction bs as [|b bs IH]; [reflexivity|].
  cbn [Bytes.hex drawn_from]. now rewrite !hex_digit_in_alphabet, IH.
Qed.


Lemma digest_length (h : Signer.state) : length (Signer.digest_bytes h) = 32.
Proof. reflexivity. Qed.

(** A signature is 64 hexadecimal digits, whatever is signed under whatever
    key. *)
Lemma sign_shape (message key : string) :
  String.length (Signer.sign message key) = 64
  ∧ drawn_from hex_alphabet (Signer.sign message key) = true.
Proof.
  unfold Signer.sign. split; [|apply hex_drawn_from_alphabet].
  rewrite hex_length. unfold Signer.hmac_sha256, Signer.sha256.
  now rewrite digest_length.
Qed.


(** ** Reading a query string back *)



Lemma cut_at_plain (sep : ascii) (s : string) :
  mentions sep s = false → cut_at sep s = (s, EmptyString).
Proof.
  induction s as [|c s IH]; [reflexivity|]. cbn [mentions cut_at].
  destruct (Ascii.eqb c sep); [discriminate|]. intros H. now rewrite IH.
Qed.

(** The constants derived from the primes are the ones FIPS 180-4 lists. *)
Example round_constants_ends :
  length Signer.round_constants = 64
  ∧ nth 0 Signer.round_constants 0%Z = 0x428a2f98%Z
  ∧ nth 1 Signer.round_constants 0%Z = 0x71374491%Z
  ∧ nth 63 Signer.round_constants 0%Z = 0xc67178f2%Z.
Proof. repeat split. Qed.

Example initial_state_ends :
  Signer.sa Signer.initial_state = 0x6a09e667%Z
  ∧ Signer.sh Signer.initial_state = 0x5be0cd19%Z.
Proof. split; reflexivity. Qed.

(** Known answers: the SHA-256 of the empty message and of [abc], and HMAC
    test cases (a short key, the empty key, a key longer than one block). *)
Example sha256_empty :
  Bytes.hex (Signer.sha256 [])
  = "e3b0c44298fc1c149afbf4c8996fb92427ae41e4649b934ca495991b7852b855".
Proof. vm_compute. reflexivity. Qed.

Example sha256_abc :
  Bytes.hex (Signer.sha256 (Bytes.of_string "abc"))
  = "ba7816bf8f01cfea414140de5dae2223b00361a396177a9cb410ff61f20015ad".
Proof. vm_compute. reflexivity. Qed.

Example sign_fox_under_key :
  Signer.sign "The quick brown fox jumps over the lazy dog" "key"
  = "f7bc83f430538424b13298e6aa6fb143ef4d59a14946175997479dbc2d1a3cd8".
Proof. vm_compute. reflexivity. Qed.

Example sign_empty_under_empty :
  Signer.sign "" ""
  = "b613679a0814d9ec772f95d778c35fc5ff1697c493715653c6c712144292c5ad".
Proof. vm_compute. reflexivity. Qed.

Example sign_empty_under_sk_1 :
  Signer.sign "" "sk-1"
  = "1a9e3c34b64bf2ecd8bc33f4ceedfa4288f1876fff30cf73e23f7a3e507b1182".
Proof. vm_compute. reflexivity. Qed.

Example sign_under_long_key :
  Signer.sign "" "aaaaaaaaaaaaaaaaaaaaaaaaaaaaaaaaaaaaaaaaaaaaaaaaaaaaaaaaaaaaaaaaaaaaaaaaaaaaaaaa"
  = "42cf2169002f09103516f5c229bcba8fe2c55f0c187f043f200f8cfb3884bcf9".
Proof. vm_compute. reflexivity. Qed.

(** Distinct keys, distinct signatures, on one concrete pair. *)
Example sign_tells_keys_apart : Signer.sign "" "sk-1" ≠ Signer.sign "" "sk-2".
Proof. vm_compute. discriminate. Qed.

(** ** Error payloads *)

(** C1 (counterexample).  A payload whose error code reports a failure comes
    back as a success: from [obtainAccessToken], [obtainOpenId] and
    [obtainTelephone] whenever the request resolves, and from [fetchUser]
    when the payload also holds a key-info list.  So it is not the case that
    every operation rejects error payloads. *)
Lemma error_payload_returned_as_success :
  indicates_failure Stub.invalid_appid
  ∧ indicates_failure Stub.failed_profile
  ∧ settled (run (obtainAccessToken ∅ Stub.codes Stub.messages)
                 (Stub.answering 200 Stub.invalid_appid))
    = inr Stub.invalid_appid
  ∧ settled (run (obtainOpenId ∅ Stub.codes Stub.messages "code-1")
                 (Stub.answering 200 Stub.invalid_appid))
    = inr Stub.invalid_appid
  ∧ settled (run (obtainTelephone Stub.codes Stub.messages "token-1" "code-1" "oid-1")
                 (Stub.answering 200 Stub.invalid_appid))
    = inr Stub.invalid_appid
  ∧ settled (run (fetchUser Stub.codes Stub.messages "oid-1" "token-1" "sk-1")
                 (Stub.answering 200 Stub.failed_profile))
    = inr Stub.failed_profile
  ∧ ¬ (∀ c, identity_operation c = true →
            rejects_error_payloads (perform ∅ Stub.codes Stub.messages c)).
Proof.
  assert (indicates_failure Stub.invalid_appid) as Hbad.
  { exists 40013%Z. split; [reflexivity | discriminate]. }
  assert (settled (run (obtainAccessToken ∅ Stub.codes Stub.messages)
                       (Stub.answering 200 Stub.invalid_appid))
          = inr Stub.invalid_appid) as Htoken.
  { unfold obtainAccessToken. rewrite run_payload_request. reflexivity. }
  split; [exact Hbad|]. split.
  { exists 40001%Z. split; [reflexivity | discriminate]. }
  split; [exact Htoken|]. split.
  { unfold obtainOpenId. rewrite run_payload_request. reflexivity. }
  split.
  { unfold obtainTelephone. rewrite run_payload_request. reflexivity. }
  split.
  { rewrite run_fetchUser. reflexivity. }
  intros Hall.
  destruct (run_perform ∅ Stub.codes Stub.messages ObtainAccessToken) as [req Hrun].
  destruct (Hall ObtainAccessToken eq_refl (Stub.answering 200 Stub.invalid_appid) req
              {| status := 200; response_data := Stub.invalid_appid |}) as [e He].
  - rewrite Hrun. reflexivity.
  - reflexivity.
  - exact Hbad.
  - cbn [perform] in He. rewrite Htoken in He. discriminate.
Qed.

(** C1 (amended).  Whenever the request of a call resolves with a response
    that passes the call's own tests (none but for [fetchUser]: an OK status
    and a readable first key-info entry), the caller receives the response
    payload, unchanged, as a success; the payload's error code plays no
    part. *)
Theorem resolved_payload_returned_whatever_error_code
    env codes msgs (c : Call) (t : Transport) req r :
  sent (run (perform env codes msgs c) t) = [req] →
  t req = inr r →
  accepts codes c r →
  settled (run (perform env codes msgs c) t) = inr (response_data r).
Proof.
  intros Hsent Hr Hacc. rewrite (settled_perform _ _ _ _ _ _ Hsent), Hr.
  destruct c; try reflexivity.
  destruct Hacc as [Hok [entry Hentry]].
  unfold fetchUser_settles. rewrite decide_True by assumption.
  now rewrite Hentry.
Qed.

Lemma failed_profile_returned_by_fetchUser :
  indicates_failure Stub.failed_profile
  ∧ settled (run (perform ∅ Stub.codes Stub.messages (FetchUser "oid-1" "token-1" "sk-1"))
                 (Stub.answering 200 Stub.failed_profile))
    = inr Stub.failed_profile.
Proof.
  split.
  - exists 40001%Z. split; [reflexivity | discriminate].
  - refine (resolved_payload_returned_whatever_error_code
              ∅ Stub.codes Stub.messages (FetchUser "oid-1" "token-1" "sk-1")
              (Stub.answering 200 Stub.failed_profile) _
              {| status := 200; response_data := Stub.failed_profile |} _ _ _).
    + reflexivity.
    + reflexivity.
    + split; [reflexivity|]. exists (Stub.key_info "k1"). reflexivity.
Defined.

(** The tests a response has to pass never look at the error code. *)
Lemma accepts_ignores_error_code codes (c : Call) code fields (v : Value) :
  accepts codes c {| status := code; response_data := VObj (<["errcode" := v]> fields) |}
  ↔ accepts codes c {| status := code; response_data := VObj fields |}.
Proof.
  destruct c; try reflexivity.
  unfold accepts, first_key_info, JS.get_member. cbn [status response_data].
  rewrite lookup_insert_ne by discriminate. reflexivity.
Qed.

(** ** The signed profile request *)

(** C2.  Every call of [fetchUser] sends one GET request whose query carries
    [access_token], [openid], [signature] and [sig_method=hmac_sha256], in
    that order, and the signature is [sign('', sessionKey)]: the hexadecimal
    HMAC-SHA256 of the empty message under the session key. *)
Theorem fetchUser_request_is_signed
    codes msgs (openId accessToken sessionKey : string) (t : Transport) :
  ∃ req,
    sent (run (fetchUser codes msgs openId accessToken sessionKey) t) = [req]
    ∧ wire_method req = "GET"
    ∧ url req
      = "https://api.weixin.qq.com/wxa/getuserencryptkey?"
          +:+ render_query [("access_token", "=" +:+ accessToken);
                            ("openid", openId);
                            ("signature", Signer.sign "" sessionKey);
                            ("sig_method", "hmac_sha256")]
    ∧ Signer.sign "" sessionKey
      = Bytes.hex (Signer.hmac_sha256 (Bytes.of_string sessionKey) []).
Proof.
  rewrite run_fetchUser. eexists. repeat split.
Qed.

(** C3.  When the response to [fetchUser] has any status other than OK, the
    call fails with the bad-request kind, and the body plays no part: any
    other response with that status settles the call the same way. *)
Theorem fetchUser_non_OK_status_is_bad_request
    codes msgs (openId accessToken sessionKey : string) (t : Transport) req r :
  sent (run (fetchUser codes msgs openId accessToken sessionKey) t) = [req] →
  t req = inr r →
  status r ≠ OK codes →
  settled (run (fetchUser codes msgs openId accessToken sessionKey) t)
  = inl (HttpError (BAD_REQUEST codes) (BAD_REQUEST_MESSAGE msgs)
           (Some (HttpError (BAD_REQUEST codes) (BAD_REQUEST_MESSAGE msgs) None)))
  ∧ ∀ (t' : Transport) r',
      t' req = inr r' → status r' = status r →
      settled (run (fetchUser codes msgs openId accessToken sessionKey) t')
      = settled (run (fetchUser codes msgs openId accessToken sessionKey) t).
Proof.
  intros Hsent Hr Hstatus.
  rewrite (settled_fetchUser _ _ _ _ _ _ _ Hsent), Hr.
  unfold fetchUser_settles. rewrite decide_False by assumption.
  split; [reflexivity|].
  intros t' r' Hr' Hsame. rewrite (sent_fetchUser _ _ _ _ _ t t') in Hsent.
  rewrite (settled_fetchUser _ _ _ _ _ _ _ Hsent), Hr'.
  unfold fetchUser_settles. rewrite decide_False by congruence. reflexivity.
Qed.

Lemma well_formed_profile_with_status_204_is_bad_request :
  settled (run (fetchUser Stub.codes Stub.messages "oid-1" "token-1" "sk-1")
               (Stub.answering 204 (Stub.profile [Stub.key_info "k1"])))
  = inl (HttpError 400 "Bad Request" (Some (HttpError 400 "Bad Request" None))).
Proof.
  refine (proj1 (fetchUser_non_OK_status_is_bad_request
                   Stub.codes Stub.messages "oid-1" "token-1" "sk-1"
                   (Stub.answering 204 (Stub.profile [Stub.key_info "k1"])) _
                   {| status := 204; response_data := Stub.profile [Stub.key_info "k1"] |}
                   _ _ _)).
  - reflexivity.
  - reflexivity.
  - discriminate.
Defined.

(** C7.  When the response is OK and its body holds a non-empty key-info
    list, [fetchUser] resolves with a payload whose first key-info entry is
    the first entry of the body's list. *)
Theorem fetchUser_returns_first_key_info
    codes msgs (openId accessToken sessionKey : string) (t : Transport) req r
    (fields : gmap string Value) (entry : Value) (others : list Value) :
  sent (run (fetchUser codes msgs openId accessToken sessionKey) t) = [req] →
  t req = inr r →
  status r = OK codes →
  response_data r = VObj fields →
  fields !! "key_info_list" = Some (VArr (entry :: others)) →
  ∃ payload,
    settled (run (fetchUser codes msgs openId accessToken sessionKey) t) = inr payload
    ∧ first_key_info payload = inr entry.
Proof.
  intros Hsent Hr Hok Hdata Hlist.
  rewrite (settled_fetchUser _ _ _ _ _ _ _ Hsent).
  assert (first_key_info (response_data r) = inr entry) as Hfirst.
  { rewrite Hdata. unfold first_key_info, JS.get_member. rewrite Hlist. reflexivity. }
  rewrite Hr. unfold fetchUser_settles. rewrite decide_True by assumption.
  rewrite Hfirst. eauto.
Qed.

Lemma profile_first_key_info_returned :
  ∃ payload,
    settled (run (fetchUser Stub.codes Stub.messages "oid-1" "token-1" "sk-1")
                 (Stub.answering 200
                    (Stub.profile [Stub.key_info "k1"; Stub.key_info "k2"])))
    = inr payload
    ∧ first_key_info payload = inr (Stub.key_info "k1").
Proof.
  refine (fetchUser_returns_first_key_info
            Stub.codes Stub.messages "oid-1" "token-1" "sk-1"
            (Stub.answering 200 (Stub.profile [Stub.key_info "k1"; Stub.key_info "k2"])) _
            {| status := 200;
               response_data := Stub.profile [Stub.key_info "k1"; Stub.key_info "k2"] |}
            _ (Stub.key_info "k1") [Stub.key_info "k2"] _ _ _ _ _).
  - reflexivity.
  - reflexivity.
  - reflexivity.
  - reflexivity.
  - reflexivity.
Defined.

(** C9.  When the response is OK and its body's key-info list is present
    but empty, [fetchUser] still resolves with the payload: indexing the
    empty list yields [undefined] and raises nothing. *)
Theorem fetchUser_empty_key_info_list_resolves
    codes msgs (openId accessToken sessionKey : string) (t : Transport) req r
    (fields : gmap string Value) :
  sent (run (fetchUser codes msgs openId accessToken sessionKey) t) = [req] →
  t req = inr r →
  status r = OK codes →
  response_data r = VObj fields →
  fields !! "key_info_list" = Some (VArr []) →
  settled (run (fetchUser codes msgs openId accessToken sessionKey) t)
  = inr (response_data r)
  ∧ first_key_info (response_data r) = inr VUndefined.
Proof.
  intros Hsent Hr Hok Hdata Hlist.
  rewrite (settled_fetchUser _ _ _ _ _ _ _ Hsent).
  assert (first_key_info (response_data r) = inr VUndefined) as Hfirst.
  { rewrite Hdata. unfold first_key_info, JS.get_member. rewrite Hlist. reflexivity. }
  rewrite Hr. unfold fetchUser_settles. rewrite decide_True by assumption.
  now rewrite Hfirst.
Qed.

Lemma empty_profile_resolves :
  settled (run (fetchUser Stub.codes Stub.messages "oid-1" "token-1" "sk-1")
               (Stub.answering 200 (Stub.profile [])))
  = inr (Stub.profile [])
  ∧ first_key_info (Stub.profile []) = inr VUndefined.
Proof.
  refine (fetchUser_empty_key_info_list_resolves
            Stub.codes Stub.messages "oid-1" "token-1" "sk-1"
            (Stub.answering 200 (Stub.profile [])) _
            {| status := 200; response_data := Stub.profile [] |} _ _ _ _ _ _).
  - reflexivity.
  - reflexivity.
  - reflexivity.
  - reflexivity.
  - reflexivity.
Defined.

(** ** Request shaping *)

(** C4.  For every operation, the URL of the request it sends is the API
    host followed by the endpoint's literal template with its holes filled
    (a doubled [=] after [access_token] for getuserencryptkey and
    checksession, a single one for getuserphonenumber), and the verb is the
    template's. *)
Theorem request_matches_endpoint_template env codes msgs (c : Call) (t : Transport) :
  ∃ req,
    sent (run (perform env codes msgs c) t) = [req]
    ∧ url req = api_host +:+ instantiate (template (endpoint_of c)) (binding_of env c)
    ∧ wire_method req = verb (endpoint_of c).
Proof.
  destruct c; cbn [perform];
    [ unfold obtainAccessToken | unfold obtainTelephone | unfold obtainOpenId
    | unfold verifySession | ];
    rewrite ?run_payload_request, ?run_fetchUser; cbn [sent];
    eexists; (split; [reflexivity|]); (split; [|reflexivity]);
    cbn [url endpoint_of binding_of template instantiate
         token_endpoint jscode2session_endpoint getuserphonenumber_endpoint
         getuserencryptkey_endpoint checksession_endpoint];
    repeat first [ rewrite lookup_insert_eq | rewrite lookup_singleton_eq
                 | rewrite lookup_insert_ne by discriminate ];
    cbn [default]; rewrite !append_empty_r; reflexivity.
Qed.

(** C6.  Every call of [obtainTelephone] sends one POST request to the phone
    endpoint, with the access token as the query parameter [access_token]
    and a JSON body made of exactly the fields [code] and [openid]. *)
Theorem obtainTelephone_posts_code_and_openid
    codes msgs (accessToken code openid : string) (t : Transport) :
  ∃ req body,
    sent (run (obtainTelephone codes msgs accessToken code openid) t) = [req]
    ∧ wire_method req = "POST"
    ∧ url req
      = "https://api.weixin.qq.com/wxa/business/getuserphonenumber?"
          +:+ render_query [("access_token", accessToken)]
    ∧ headers req = [("Content-Type", "application/json")]
    ∧ data req = Some (VObj body)
    ∧ dom body = ({[ "code"; "openid" ]} : gset string)
    ∧ body !! "code" = Some (VStr code)
    ∧ body !! "openid" = Some (VStr openid).
Proof.
  unfold obtainTelephone. rewrite run_payload_request. cbn [sent].
  eexists. eexists. split; [reflexivity|]. cbn [data wire_method url headers method].
  do 4 (split; [reflexivity|]). split; [|split].
  - rewrite dom_insert_L, dom_singleton_L. reflexivity.
  - apply lookup_insert_eq.
  - rewrite lookup_insert_ne by discriminate. apply lookup_singleton_eq.
Qed.

(** C8.  [VARS] has no [APP_ID] and no [APP_SECRET] field: the only
    variables it takes from the environment are the three [IOT_*] ones (its
    fields are those three and the constant [APP_CONTEXT]).  So the URLs of
    [obtainAccessToken] and [obtainOpenId] carry the text [undefined] as
    [appid] and as [secret], in every call and every environment. *)
Theorem app_credentials_are_undefined
    (env : gmap string string) codes msgs (code : string) (t : Transport) :
  VARS env !! "APP_ID" = None
  ∧ VARS env !! "APP_SECRET" = None
  ∧ dom (VARS env)
    = ({[ "APP_CONTEXT"; "IOT_API_ENDPOINT"; "IOT_CLIENT_ID"; "IOT_CLIENT_SECRET" ]}
         : gset string)
  ∧ (∀ env' : gmap string string,
       (∀ name, String.prefix "IOT_" name = true → env !! name = env' !! name) →
       VARS env = VARS env')
  ∧ (∃ req,
       sent (run (obtainAccessToken env codes msgs) t) = [req]
       ∧ url req
         = "https://api.weixin.qq.com/cgi-bin/token?"
             +:+ render_query [("grant_type", "client_credential");
                               ("appid", JS.to_string VUndefined);
                               ("secret", JS.to_string VUndefined)]
       ∧ url req
         = "https://api.weixin.qq.com/cgi-bin/token?grant_type=client_credential&appid=undefined&secret=undefined")
  ∧ (∃ req,
       sent (run (obtainOpenId env codes msgs code) t) = [req]
       ∧ url req
         = "https://api.weixin.qq.com/sns/jscode2session?"
             +:+ render_query [("appid", JS.to_string VUndefined);
                               ("secret", JS.to_string VUndefined);
                               ("js_code", code);
                               ("grant_type", "authorization_code")]
       ∧ url req
         = "https://api.weixin.qq.com/sns/jscode2session?appid=undefined&secret=undefined&js_code="
             +:+ code +:+ "&grant_type=authorization_code").
Proof.
  destruct (VARS_no_app_credentials env) as [Hid Hsecret].
  destruct (VARS_splice_app_credentials env) as [Sid Ssecret].
  split; [exact Hid|]. split; [exact Hsecret|].
  split; [apply VARS_fields|].
  split; [apply VARS_reads_IOT_only|].
  split.
  - unfold obtainAccessToken. rewrite run_payload_request, Sid, Ssecret.
    eexists. repeat split.
  - unfold obtainOpenId. rewrite run_payload_request, Sid, Ssecret.
    eexists. repeat split.
Qed.

(** ** Failures *)

(** C5.  Every call sends exactly one request.  When the transport rejects
    it with an error, the call fails with the bad-request kind (the same
    code and message for every operation) carrying that error as its cause;
    when [fetchUser] receives a non-OK status, it fails with the same kind,
    whose cause is the bad-request error raised at the status test. *)
Theorem transport_failure_is_uniform_bad_request
    env codes msgs (c : Call) (t : Transport) :
  ∃ req,
    sent (run (perform env codes msgs c) t) = [req]
    ∧ (∀ e, t req = inl e →
         settled (run (perform env codes msgs c) t)
         = inl (HttpError (BAD_REQUEST codes) (BAD_REQUEST_MESSAGE msgs) (Some e)))
    ∧ (∀ r openId accessToken sessionKey,
         c = FetchUser openId accessToken sessionKey →
         t req = inr r → status r ≠ OK codes →
         settled (run (perform env codes msgs c) t)
         = inl (HttpError (BAD_REQUEST codes) (BAD_REQUEST_MESSAGE msgs)
                  (Some (HttpError (BAD_REQUEST codes) (BAD_REQUEST_MESSAGE msgs) None)))).
Proof.
  destruct (run_perform env codes msgs c) as [req Hrun].
  exists req. rewrite Hrun. cbn [sent settled]. split; [reflexivity|]. split.
  - intros e ->. reflexivity.
  - intros r openId accessToken sessionKey -> -> Hstatus.
    unfold fetchUser_settles. rewrite decide_False by assumption. reflexivity.
Qed.

Lemma unreachable_remote_is_bad_request :
  length (sent (run (perform ∅ Stub.codes Stub.messages
                       (ObtainTelephone "token-1" "code-1" "oid-1"))
                    Stub.unreachable)) = 1
  ∧ settled (run (perform ∅ Stub.codes Stub.messages
                    (ObtainTelephone "token-1" "code-1" "oid-1"))
                 Stub.unreachable)
    = inl (HttpError 400 "Bad Request" (Some (AxiosError "ECONNREFUSED" None)))
  ∧ settled (run (perform ∅ Stub.codes Stub.messages (FetchUser "oid-1" "token-1" "sk-1"))
                 (Stub.answering 204 (Stub.profile [])))
    = inl (HttpError 400 "Bad Request" (Some (HttpError 400 "Bad Request" None))).
Proof.
  destruct (transport_failure_is_uniform_bad_request
              ∅ Stub.codes Stub.messages (ObtainTelephone "token-1" "code-1" "oid-1")
              Stub.unreachable) as (req & Hsent & Hreject & _).
  destruct (transport_failure_is_uniform_bad_request
              ∅ Stub.codes Stub.messages (FetchUser "oid-1" "token-1" "sk-1")
              (Stub.answering 204 (Stub.profile []))) as (req' & _ & _ & Hstatus).
  split; [now rewrite Hsent|]. split.
  - apply Hreject. reflexivity.
  - apply (Hstatus {| status := 204; response_data := Stub.profile [] |}
             "oid-1" "token-1" "sk-1"); [reflexivity | reflexivity | discriminate].
Defined.

(** ** One signature for one session key *)

(** C10.  [sign('', k)] depends on the key alone, so whatever the other
    arguments and whatever the remote side answers, [fetchUser] and
    [verifySession] called with the same session key put the same signature
    in their requests: the 64 hexadecimal digits of [sign('', k)]. *)
Theorem same_key_same_signature
    codes msgs (sessionKey openId accessToken openId' accessToken' : string)
    (t t' : Transport) :
  ∃ signature req req',
    signature = Signer.sign "" sessionKey
    ∧ String.length signature = 64
    ∧ drawn_from hex_alphabet signature = true
    ∧ sent (run (fetchUser codes msgs openId accessToken sessionKey) t) = [req]
    ∧ url req
      = "https://api.weixin.qq.com/wxa/getuserencryptkey?"
          +:+ render_query [("access_token", "=" +:+ accessToken);
                            ("openid", openId);
                            ("signature", signature);
                            ("sig_method", "hmac_sha256")]
    ∧ sent (run (verifySession codes msgs openId' accessToken' sessionKey) t') = [req']
    ∧ url req'
      = "https://api.weixin.qq.com/wxa/checksession?"
          +:+ render_query [("access_token", "=" +:+ accessToken');
                            ("openid", openId');
                            ("signature", signature);
                            ("sig_method", "hmac_sha256")].
Proof.
  destruct (sign_shape "" sessionKey) as [Hlen Hhex].
  unfold verifySession. rewrite run_fetchUser, run_payload_request.
  eexists. eexists. eexists.
  split; [reflexivity|]. split; [exact Hlen|]. split; [exact Hhex|].
  repeat split.
Qed.

(** ** Further properties of the profile request *)





(** X3.  An OK response whose body has no key-info list (an error payload,
    for one) makes [fetchUser] fail with the bad-request kind: reading index
    0 of [undefined] raises a TypeError, which becomes the cause. *)
Theorem fetchUser_missing_key_info_list_is_bad_request
    codes msgs (openId accessToken sessionKey : string) (t : Transport) req r
    (fields : gmap string Value) :
  sent (run (fetchUser codes msgs openId accessToken sessionKey) t) = [req] →
  t req = inr r →
  status r = OK codes →
  response_data r = VObj fields →
  fields !! "key_info_list" = None →
  settled (run (fetchUser codes msgs openId accessToken sessionKey) t)
  = inl (HttpError (BAD_REQUEST codes) (BAD_REQUEST_MESSAGE msgs) (Some (TypeError "0"))).
Proof.
  intros Hsent Hr Hok Hdata Hlist.
  rewrite (settled_fetchUser _ _ _ _ _ _ _ Hsent), Hr.
  unfold fetchUser_settles. rewrite decide_True by assumption.
  rewrite Hdata. unfold first_key_info, JS.get_member. rewrite Hlist. reflexivity.
Qed.

Lemma error_payload_without_list_fails_fetchUser :
  settled (run (fetchUser Stub.codes Stub.messages "oid-1" "token-1" "sk-1")
               (Stub.answering 200 Stub.invalid_appid))
  = inl (HttpError 400 "Bad Request" (Some (TypeError "0"))).
Proof.
  refine (fetchUser_missing_key_info_list_is_bad_request
            Stub.codes Stub.messages "oid-1" "token-1" "sk-1"
            (Stub.answering 200 Stub.invalid_appid) _
            {| status := 200; response_data := Stub.invalid_appid |} _ _ _ _ _ _).
  - reflexivity.
  - reflexivity.
  - reflexivity.
  - reflexivity.
  - reflexivity.
Defined.

(** The end-to-end scenario of the design document: the code exchange
    yields a session key, and the profile request is accepted by a remote
    side that insists on [signature] being the digest of that key. *)
Example signing_contract_end_to_end :
  let session := VObj {[ "openid" := VStr "oid-1"; "session_key" := VStr "sk-1" ]} in
  let digest := "1a9e3c34b64bf2ecd8bc33f4ceedfa4288f1876fff30cf73e23f7a3e507b1182" in
  let remote : Transport := fun req =>
    if decide (query_param (url req) "signature" = Some digest)
    then inr {| status := 200; response_data := Stub.profile [Stub.key_info "k1"] |}
    else inl (AxiosError "ERR_BAD_REQUEST" (Some 401%Z)) in
  settled (run (obtainOpenId ∅ Stub.codes Stub.messages "test-code")
               (Stub.answering 200 session)) = inr session
  ∧ Signer.sign "" "sk-1" = digest
  ∧ settled (run (fetchUser Stub.codes Stub.messages "oid-1" "token-1" "sk-1") remote)
    = inr (Stub.profile [Stub.key_info "k1"]).
Proof.
  intros session digest remote.
  assert (Signer.sign "" "sk-1" = digest) as Hsign by (vm_compute; reflexivity).
  split; [|split; [exact Hsign|]].
  - unfold obtainOpenId. rewrite run_payload_request. reflexivity.
  - vm_compute. reflexivity.
Qed.

(** ** Failures, exhaustively *)

Lemma get_index_fails_iff_nullish (v : Value) (i : nat) :
  (∃ e, JS.get_index v i = inl e) ↔ nullish_value v.
Proof.
  unfold nullish_value. split.
  - intros [e He]. destruct v; cbn in He; try discriminate; auto.
  - intros [-> | ->]; cbn; eauto.
Qed.

Lemma first_key_info_cases (payload : Value) :
  (nullish_value payload ∧ first_key_info payload = inl (TypeError "key_info_list"))
  ∨ (∃ list, JS.get_member payload "key_info_list" = inr list
             ∧ nullish_value list ∧ first_key_info payload = inl (TypeError "0"))
  ∨ (∃ list entry, JS.get_member payload "key_info_list" = inr list
                   ∧ ¬ nullish_value list ∧ first_key_info payload = inr entry).
Proof.
  unfold first_key_info, nullish_value.
  destruct (JS.get_member payload "key_info_list") as [e|list] eqn:Hmember.
  - left. destruct payload; cbn in Hmember; try discriminate;
      injection Hmember as <-; auto.
  - right. destruct list; cbn;
      first [ left; eexists; split; [reflexivity|]; split; [auto | reflexivity]
            | right; eexists; eexists; split; [reflexivity|];
              split; [intros [|]; discriminate | reflexivity] ].
Qed.

(** X4.  Whatever goes wrong, the caller sees one thing only: a bad-request
    error that carries a cause.  The cause is the error the transport
    rejected with, or, in [fetchUser] alone, the bad-request error raised
    on a non-OK status or the TypeError raised by reading
    [payload.key_info_list[0]] off a payload, or a list, that is
    [undefined] or [null]. *)
Theorem every_failure_is_bad_request_with_cause
    env codes msgs (c : Call) (t : Transport) req e :
  sent (run (perform env codes msgs c) t) = [req] →
  settled (run (perform env codes msgs c) t) = inl e →
  ∃ cause,
    e = HttpError (BAD_REQUEST codes) (BAD_REQUEST_MESSAGE msgs) (Some cause)
    ∧ FailureCause codes msgs c (t req) cause.
Proof.
  intros Hsent. rewrite (settled_perform _ _ _ _ _ _ Hsent).
  destruct (t req) as [e0|r].
  - intros [= <-]. exists e0. split; [reflexivity | constructor].
  - destruct c; try discriminate.
    unfold fetchUser_settles.
    destruct (decide (status r = OK codes)) as [Hok|Hbad].
    + destruct (first_key_info_cases (response_data r))
        as [[Hnull ->] | [(list & Hlist & Hnull & ->) | (list & entry & _ & _ & ->)]];
        [ intros [= <-] | intros [= <-] | discriminate ];
        eexists; (split; [reflexivity|]).
      * eapply payload_nullish; eauto.
      * eapply key_info_list_nullish; eauto.
    + intros [= <-]. eexists. split; [reflexivity|].
      eapply status_not_OK; eauto.
Qed.

Lemma string_payload_failure_has_cause :
  settled (run (perform ∅ Stub.codes Stub.messages (FetchUser "oid-1" "token-1" "sk-1"))
               (Stub.answering 200 (VStr "Service Unavailable")))
  = inl (HttpError 400 "Bad Request" (Some (TypeError "0")))
  ∧ ∃ cause,
      HttpError 400 "Bad Request" (Some (TypeError "0"))
      = HttpError 400 "Bad Request" (Some cause)
      ∧ FailureCause Stub.codes Stub.messages (FetchUser "oid-1" "token-1" "sk-1")
          (inr {| status := 200; response_data := VStr "Service Unavailable" |}) cause.
Proof.
  split; [reflexivity|].
  refine (every_failure_is_bad_request_with_cause
            ∅ Stub.codes Stub.messages (FetchUser "oid-1" "token-1" "sk-1")
            (Stub.answering 200 (VStr "Service Unavailable")) _
            (HttpError 400 "Bad Request" (Some (TypeError "0"))) _ _).
  - reflexivity.
  - reflexivity.
Defined.

(** X5.  [fetchUser] resolves exactly when the status is OK and the body is
    an object whose [key_info_list] field is present and neither [undefined]
    nor [null] (an empty list, a string or a number will do); what it
    resolves with is the body itself. *)
Theorem fetchUser_resolves_iff
    codes msgs (openId accessToken sessionKey : string) (t : Transport) req r :
  sent (run (fetchUser codes msgs openId accessToken sessionKey) t) = [req] →
  t req = inr r →
  ((∃ payload,
      settled (run (fetchUser codes msgs openId accessToken sessionKey) t) = inr payload)
   ↔ status r = OK codes
     ∧ ∃ fields list,
         response_data r = VObj fields
         ∧ fields !! "key_info_list" = Some list
         ∧ ¬ nullish_value list)
  ∧ ∀ payload,
      settled (run (fetchUser codes msgs openId accessToken sessionKey) t) = inr payload →
      payload = response_data r.
Proof.
  intros Hsent Hr. rewrite (settled_fetchUser _ _ _ _ _ _ _ Hsent), Hr.
  unfold fetchUser_settles. split.
  - split.
    + intros [payload Hres].
      destruct (decide (status r = OK codes)) as [Hok|]; [|discriminate].
      split; [exact Hok|].
      destruct (first_key_info_cases (response_data r))
        as [[_ Hf] | [(list & _ & _ & Hf) | (list & entry & Hlist & Hnn & _)]];
        try (rewrite Hf in Hres; discriminate).
      destruct (response_data r) as [| | | | |items|fields]; cbn in Hlist;
        try discriminate; injection Hlist as <-;
        try (exfalso; apply Hnn; left;
             first [ reflexivity
                   | destruct (decide ("key_info_list" = "length"));
                     [discriminate | reflexivity] ]).
      exists fields. destruct (fields !! "key_info_list") as [list|] eqn:Hl;
        rewrite ?Hl in Hnn; cbn [default] in Hnn.
      * exists list. auto.
      * exfalso. apply Hnn. left. reflexivity.
    + intros (Hok & fields & list & Hdata & Hlist & Hnn).
      rewrite decide_True by assumption. rewrite Hdata.
      unfold first_key_info, JS.get_member. rewrite Hlist.
      change (default VUndefined (Some list)) with list.
      destruct (JS.get_index list 0) as [e|entry] eqn:Hindex; [|eauto].
      exfalso. apply Hnn, (get_index_fails_iff_nullish list 0). eauto.
  - intros payload.
    destruct (decide (status r = OK codes)); [|discriminate].
    destruct (first_key_info (response_data r)); [discriminate|].
    now intros [= <-].
Qed.

Lemma profile_with_empty_string_list_resolves :
  ((∃ payload,
      settled (run (fetchUser Stub.codes Stub.messages "oid-1" "token-1" "sk-1")
                   (Stub.answering 200 (VObj {[ "key_info_list" := VStr "" ]})))
      = inr payload)
   ↔ 200%Z = 200%Z
     ∧ ∃ fields list,
         VObj {[ "key_info_list" := VStr "" ]} = VObj fields
         ∧ fields !! "key_info_list" = Some list
         ∧ ¬ nullish_value list)
  ∧ ∀ payload,
      settled (run (fetchUser Stub.codes Stub.messages "oid-1" "token-1" "sk-1")
                   (Stub.answering 200 (VObj {[ "key_info_list" := VStr "" ]})))
      = inr payload →
      payload = VObj {[ "key_info_list" := VStr "" ]}.
Proof.
  refine (fetchUser_resolves_iff Stub.codes Stub.messages "oid-1" "token-1" "sk-1"
            (Stub.answering 200 (VObj {[ "key_info_list" := VStr "" ]})) _
            {| status := 200; response_data := VObj {[ "key_info_list" := VStr "" ]} |}
            _ _).
  - reflexivity.
  - reflexivity.
Defined.

(** ** Writing a query and reading it back *)









(** ** What goes on the wire besides the URL *)

(** X7.  Every request carries one header, [Content-Type: application/json],
    and nothing else; a request has a body exactly when it comes from
    [obtainTelephone]. *)
Theorem only_obtainTelephone_sends_a_body env codes msgs (c : Call) (t : Transport) :
  ∃ req,
    sent (run (perform env codes msgs c) t) = [req]
    ∧ headers req = [("Content-Type", "application/json")]
    ∧ (is_Some (data req)
       ↔ ∃ accessToken code openid, c = ObtainTelephone accessToken code openid).
Proof.
  destruct c; cbn [perform];
    [ unfold obtainAccessToken | unfold obtainTelephone | unfold obtainOpenId
    | unfold verifySession | ];
    rewrite ?run_payload_request, ?run_fetchUser; cbn [sent];
    eexists; (split; [reflexivity|]); cbn [headers data]; (split; [reflexivity|]);
    split;
    first [ solve [eauto] | intros [? [=]] | intros (? & ? & ? & [=]) ].
Qed.

(** ** The configuration settings *)

(** X8.  Whatever the environment holds, every field of [VARS] is a string:
    [APP_CONTEXT] is empty, and each [IOT_*] setting is the environment's
    value when there is one (an empty value included) and its default
    otherwise. *)
Theorem VARS_settings (env : gmap string string) :
  VARS env !! "APP_CONTEXT" = Some (VStr "")
  ∧ VARS env !! "IOT_API_ENDPOINT"
    = Some (VStr (default "https://openapi.tuyacn.com" (env !! "IOT_API_ENDPOINT")))
  ∧ VARS env !! "IOT_CLIENT_ID" = Some (VStr (default "" (env !! "IOT_CLIENT_ID")))
  ∧ VARS env !! "IOT_CLIENT_SECRET" = Some (VStr (default "" (env !! "IOT_CLIENT_SECRET")))
  ∧ ∀ name v, VARS env !! name = Some v → ∃ s, v = VStr s.
Proof.
  assert (∀ name d, JS.nullish (process_env env name) (VStr d)
                    = VStr (default d (env !! name))) as Hnullish.
  { intros name d. unfold process_env. destruct (env !! name); reflexivity. }
  unfold VARS. rewrite !Hnullish.
  split; [apply lookup_insert_eq|].
  split; [rewrite lookup_insert_ne by discriminate; apply lookup_insert_eq|].
  split; [rewrite !lookup_insert_ne by discriminate; apply lookup_insert_eq|].
  split; [rewrite !lookup_insert_ne by discriminate; apply lookup_singleton_eq|].
  intros name v.
  rewrite !lookup_insert. repeat case_decide; try (intros [= <-]; eauto).
  rewrite lookup_singleton. case_decide; [intros [= <-]; eauto | discriminate].
Qed.

(** ** Serialising a BigInt *)

Lemma digit_value_char (d : N) : (d < 10)%N → digit_value (BigInt.digit_char d) = Some d.
Proof.
  intros H.
  assert (d ∈ [0; 1; 2; 3; 4; 5; 6; 7; 8; 9]%N) as Hd.
  { rewrite !elem_of_cons. lia. }
  clear H. repeat (apply elem_of_cons in Hd as [-> | Hd]; [reflexivity|]).
  now apply elem_of_nil in Hd.
Qed.

Lemma read_digits_of_digits (fuel : nat) (n : N) (acc : string) :
  (n < 2 ^ N.of_nat fuel)%N →
  read_digits (BigInt.digits fuel n acc) 0 = read_digits acc n.
Proof.
  revert n acc. induction fuel as [|fuel IH]; intros n acc Hn.
  - cbn in Hn. assert (n = 0%N) as -> by lia. reflexivity.
  - cbn [BigInt.digits].
    assert (n mod 10 < 10)%N as Hd by (apply N.mod_lt; discriminate).
    pose proof (N.div_mod n 10 ltac:(discriminate)) as Hdm.
    destruct (N.eqb_spec (n / 10) 0) as [Hz|Hnz].
    + cbn [read_digits]. rewrite digit_value_char by exact Hd.
      f_equal. lia.
    + rewrite IH.
      * cbn [read_digits]. rewrite digit_value_char by exact Hd.
        f_equal. lia.
      * rewrite Nat2N.inj_succ, N.pow_succ_r' in Hn.
        apply N.Div0.div_lt_upper_bound. lia.
Qed.

Lemma size_nat_bound (p : positive) : (N.pos p < 2 ^ N.of_nat (Pos.size_nat p))%N.
Proof.
  induction p as [p IH|p IH|]; cbn [Pos.size_nat];
    rewrite Nat2N.inj_succ, N.pow_succ_r'; lia.
Qed.

Lemma digit_char_not_minus (n : N) : Ascii.eqb (BigInt.digit_char (n mod 10)) "-" = false.
Proof.
  assert (n mod 10 < 10)%N as Hd by (apply N.mod_lt; discriminate).
  set (d := (n mod 10)%N) in *. clearbody d.
  assert (d ∈ [0; 1; 2; 3; 4; 5; 6; 7; 8; 9]%N) as Hin.
  { rewrite !elem_of_cons. lia. }
  clear Hd. repeat (apply elem_of_cons in Hin as [-> | Hin]; [reflexivity|]).
  now apply elem_of_nil in Hin.
Qed.

Lemma digits_keep_head (fuel : nat) (n : N) (acc : string) :
  (∃ c rest, acc = String c rest ∧ Ascii.eqb c "-" = false) →
  ∃ c rest, BigInt.digits fuel n acc = String c rest ∧ Ascii.eqb c "-" = false.
Proof.
  revert n acc. induction fuel as [|fuel IH]; intros n acc Hacc; [exact Hacc|].
  cbn [BigInt.digits].
  assert (∃ c rest, String (BigInt.digit_char (n mod 10)) acc = String c rest
                    ∧ Ascii.eqb c "-" = false) as Hhead.
  { eexists. eexists. split; [reflexivity | apply digit_char_not_minus]. }
  destruct (n / 10 =? 0)%N; [exact Hhead | apply IH, Hhead].
Qed.

Lemma digits_not_minus (p : positive) :
  ∃ c rest, BigInt.digits (Pos.size_nat p) (N.pos p) "" = String c rest
            ∧ Ascii.eqb c "-" = false.
Proof.
  destruct (Pos.size_nat p) as [|fuel] eqn:Hsize; [destruct p; discriminate|].
  cbn [BigInt.digits].
  assert (∃ c rest, String (BigInt.digit_char (N.pos p mod 10)) "" = String c rest
                    ∧ Ascii.eqb c "-" = false) as Hhead.
  { eexists. eexists. split; [reflexivity | apply digit_char_not_minus]. }
  destruct (N.pos p / 10 =? 0)%N; [exact Hhead | apply digits_keep_head, Hhead].
Qed.

(** X9.  The JSON form of a BigInt is its decimal numeral: reading the
    numeral gives the BigInt back, so no two BigInts serialise alike. *)
Theorem BigInt_toJSON_reads_back (n : Z) :
  numeral_value (BigInt.toJSON n) = Some n
  ∧ ∀ m, BigInt.toJSON m = BigInt.toJSON n → m = n.
Proof.
  assert (∀ k, numeral_value (BigInt.toJSON k) = Some k) as Hback.
  { intros [|p|p]; unfold BigInt.toJSON, BigInt.toString.
    - reflexivity.
    - destruct (digits_not_minus p) as (c & rest & Hd & Hc).
      unfold numeral_value. rewrite Hd, Hc, <- Hd.
      rewrite read_digits_of_digits by apply size_nat_bound. reflexivity.
    - destruct (digits_not_minus p) as (c & rest & Hd & Hc).
      unfold numeral_value. rewrite Ascii.eqb_refl, Hd, <- Hd.
      rewrite read_digits_of_digits by apply size_nat_bound. reflexivity. }
  split; [apply Hback|].
  intros m Heq. pose proof (Hback m) as Hm. rewrite Heq, Hback in Hm. congruence.
Qed.

Example BigInt_toJSON_samples :
  BigInt.toJSON 0 = "0"
  ∧ BigInt.toJSON 9007199254740993 = "9007199254740993"
  ∧ BigInt.toJSON (-1024) = "-1024".
Proof. repeat split. Qed.
